(** * The PyCaret custom-model adapter of 2_create_and_deploy_custom_model.ipynb

    Shallow embedding of the class [PyCaretModel] (its [__init__] and its
    [predict]) together with the small part of Python, pandas and the
    PyCaret persistence API the class relies on:
    - Python's string slice [s[:-4]];
    - pandas DataFrames as an index plus named columns, column selection
      [df[name]] and the constructor [pd.DataFrame({name: series, ...})];
    - PyCaret's [load_model] (which appends ".pkl" to its argument, as the
      comment in [__init__] says) and [predict_model] (the scorer), kept
      abstract in a Section, with their behaviour on the estimator as
      explicit hypotheses. *)

From Stdlib Require Import ZArith QArith String List Bool Lia.
Import ListNotations.
Open Scope string_scope.

(** ** Python exceptions and the error monad *)

Inductive exn : Type :=
  | KeyError (key : string)
  | FileNotFoundError (path : string)
  | UnpicklingError (path : string)
  | ScorerError
  | UnalignedIndexes.

Inductive result (A : Type) : Type :=
  | Ok (a : A)
  | Err (e : exn).
Arguments Ok {A} a.
Arguments Err {A} e.

Definition bind {A B} (m : result A) (f : A -> result B) : result B :=
  match m with
  | Ok a => f a
  | Err e => Err e
  end.

Notation "x <- m ;; k" := (bind m (fun x => k))
  (at level 61, m at next level, right associativity).

(** ** Python string slicing *)

(** [s[:stop]]: a negative [stop] counts from the end; the bound is then
    clamped to [0, len s], so the slice never raises. *)
Definition py_slice_to (s : string) (stop : Z) : string :=
  let n := Z.of_nat (String.length s) in
  let e := if (stop <? 0)%Z then Z.max 0 (stop + n) else Z.min stop n in
  substring 0 (Z.to_nat e) s.

(** ** Association lists (Python dicts whose order matters) *)

Fixpoint assoc {A} (k : string) (l : list (string * A)) : option A :=
  match l with
  | [] => None
  | (k', v) :: l' => if String.eqb k k' then Some v else assoc k l'
  end.

(** ** pandas values, Series and DataFrames *)

Inductive Value : Type :=
  | VInt (z : Z)
  | VFloat (q : Q)
  | VStr (s : string)
  | VBool (b : bool).

Record Series : Type := mkSeries {
  s_index : list Z;
  s_values : list Value
}.

Record DataFrame : Type := mkDataFrame {
  df_index : list Z;
  df_columns : list (string * list Value)
}.

(** Every column of a well-formed frame has one value per index label. *)
Definition df_wf (df : DataFrame) : Prop :=
  Forall (fun c => length (snd c) = length (df_index df)) (df_columns df).

Definition df_nrows (df : DataFrame) : nat := length (df_index df).

Definition df_column_names (df : DataFrame) : list string :=
  map fst (df_columns df).

(** [df[name]]: the column as a Series carrying the frame's index;
    a missing column raises [KeyError]. *)
Definition getitem (df : DataFrame) (name : string) : result Series :=
  match assoc name (df_columns df) with
  | Some v => Ok (mkSeries (df_index df) v)
  | None => Err (KeyError name)
  end.

Fixpoint list_Z_eqb (l1 l2 : list Z) : bool :=
  match l1, l2 with
  | [], [] => true
  | x :: l1', y :: l2' => Z.eqb x y && list_Z_eqb l1' l2'
  | _, _ => false
  end.

(** [pd.DataFrame({n1: s1, n2: s2, ...})]: when all Series share one index
    the frame takes that index and the columns in dict order. Alignment
    of Series with different indexes (union of the labels, NaN filling) is
    not modelled and reported as [UnalignedIndexes]. *)
Definition DataFrame_of_dict (cols : list (string * Series)) : result DataFrame :=
  match cols with
  | [] => Ok (mkDataFrame [] [])
  | (_, s0) :: _ =>
      if forallb (fun c => list_Z_eqb (s_index (snd c)) (s_index s0)) cols
      then Ok (mkDataFrame (s_index s0) (map (fun c => (fst c, s_values (snd c))) cols))
      else Err UnalignedIndexes
  end.

(** ** The loaded PyCaret pipeline *)

Section Adapter.

(** The fitted pipeline apart from its [memory] attribute, and the
    serialized blobs stored on disk, are opaque to the adapter. *)
Variable Estimator : Type.
Variable Blob : Type.

Record Pipeline : Type := mkPipeline {
  memory : string;
  estimator : Estimator
}.

(** [joblib.load] on the contents of a file: [None] when the bytes are
    not a valid serialized pipeline. *)
Variable unpickle : Blob -> option Pipeline.

(** The scorer [pycaret.classification.predict_model]: it may update the
    pipeline object it is handed (Python passes it by reference), so it
    returns the pipeline as well as the scored frame. *)
Variable predict_model : Pipeline -> DataFrame -> result (Pipeline * DataFrame).

(** The local filesystem as a list of (path, contents). *)
Definition FileSystem := list (string * Blob).

(** [pycaret.classification.load_model(name, verbose=False)]: reads the
    file [name + ".pkl"]. *)
Definition load_model (fs : FileSystem) (model_name : string) : result Pipeline :=
  let path := model_name ++ ".pkl" in
  match assoc path fs with
  | None => Err (FileNotFoundError path)
  | Some b =>
      match unpickle b with
      | None => Err (UnpicklingError path)
      | Some p => Ok p
      end
  end.

(** [custom_model.ModelContext]: its artifacts dict; [context.path(key)]
    looks the key up. *)
Record ModelContext : Type := mkModelContext {
  artifacts : list (string * string)
}.

Definition context_path (ctx : ModelContext) (key : string) : result string :=
  match assoc key (artifacts ctx) with
  | Some p => Ok p
  | None => Err (KeyError key)
  end.

(** An instance of [PyCaretModel]. *)
Record PyCaretModel : Type := mkPyCaretModel {
  context : ModelContext;
  model : Pipeline
}.

(** The path computation of [__init__]: [self.context.path("model_file")[:-4]]. *)
Definition model_dir_of (p : string) : string := py_slice_to p (-4).

(** [PyCaretModel.__init__]. *)
Definition init (fs : FileSystem) (ctx : ModelContext) : result PyCaretModel :=
  p <- context_path ctx "model_file" ;;
  let model_dir := model_dir_of p in
  m <- load_model fs model_dir ;;
  let m' := {| memory := "/tmp/"; estimator := estimator m |} in
  Ok (mkPyCaretModel ctx m').

(** [PyCaretModel.predict]: the object after the call and the result. *)
Definition predict (self : PyCaretModel) (X : DataFrame)
  : result (PyCaretModel * DataFrame) :=
  r <- predict_model (model self) X ;;
  let '(m', model_output) := r in
  lab <- getitem model_output "prediction_label" ;;
  sc <- getitem model_output "prediction_score" ;;
  res_df <- DataFrame_of_dict [("prediction_label", lab); ("prediction_score", sc)] ;;
  Ok (mkPyCaretModel (context self) m', res_df).

(** A sequence of [predict] calls on one object, threading the object. *)
Fixpoint predict_all (self : PyCaretModel) (Xs : list DataFrame)
  : result (PyCaretModel * list DataFrame) :=
  match Xs with
  | [] => Ok (self, [])
  | X :: Xs' =>
      r <- predict self X ;;
      let '(self', Y) := r in
      r' <- predict_all self' Xs' ;;
      let '(self'', Ys) := r' in
      Ok (self'', Y :: Ys)
  end.

End Adapter.

(** ** The construction claim as the spec words it

    The statement of C4 read over every artifact path. *)
Definition init_errors_claim {Estimator Blob : Type}
  (unpickle : Blob -> option (Pipeline Estimator)) : Prop :=
  forall (fs : FileSystem Blob) (ctx : ModelContext) (p : string),
  context_path ctx "model_file" = Ok p ->
  (assoc p fs = None ->
     exists path, init Estimator Blob unpickle fs ctx = Err (FileNotFoundError path))
  /\ (forall b, assoc p fs = Some b -> unpickle b = None ->
       exists path, init Estimator Blob unpickle fs ctx = Err (UnpicklingError path))
  /\ (forall b m, assoc p fs = Some b -> unpickle b = Some m ->
       init Estimator Blob unpickle fs ctx
       = Ok (mkPyCaretModel Estimator ctx
               {| memory := "/tmp/"; estimator := estimator Estimator m |})).

(** ** Concrete data: a stub pipeline and scorer, and a sample batch *)

(** A scorer standing for the trained classifier: it appends a label
    ["CH"] and a score [0.5] to every row, as PyCaret appends its
    prediction columns to the scored data. *)
Definition stub_output (X : DataFrame) : DataFrame :=
  mkDataFrame (df_index X)
    (df_columns X ++
       [("prediction_label", map (fun _ => VStr "CH") (df_index X));
        ("prediction_score", map (fun _ => VFloat (1 # 2)) (df_index X))]).

Definition stub_scorer (p : Pipeline unit) (X : DataFrame)
  : result (Pipeline unit * DataFrame) :=
  Ok (p, stub_output X).

Definition stub_unpickle (b : string) : option (Pipeline unit) :=
  if String.eqb b "PIPELINE" then Some (mkPipeline unit "/var/cache/pycaret" tt) else None.

Definition sample_ctx : ModelContext :=
  mkModelContext [("model_file", "juice_best_model.pkl")].

Definition sample_fs : FileSystem string :=
  [("juice_best_model.pkl", "PIPELINE")].

Definition sample_adapter : PyCaretModel unit :=
  mkPyCaretModel unit sample_ctx (mkPipeline unit "/tmp/" tt).

(** The first rows and columns of [test_pd]. *)
Definition sample_batch : DataFrame :=
  mkDataFrame [0; 1; 2]%Z
    [("Id", [VInt 1; VInt 2; VInt 3]);
     ("PriceCH", [VFloat (175 # 100); VFloat (175 # 100); VFloat (186 # 100)]);
     ("Store7", [VStr "No"; VStr "No"; VStr "No"])].

(** What [predict] is expected to return on [sample_batch]. *)
Definition sample_prediction : DataFrame :=
  mkDataFrame [0; 1; 2]%Z
    [("prediction_label", [VStr "CH"; VStr "CH"; VStr "CH"]);
     ("prediction_score", [VFloat (1 # 2); VFloat (1 # 2); VFloat (1 # 2)])].

(** Further scorers for the edge cases of [predict]: one that fails on an
    empty batch, one that returns its input unscored, one that omits the
    score column. *)
Definition picky_scorer (p : Pipeline unit) (X : DataFrame)
  : result (Pipeline unit * DataFrame) :=
  match df_index X with
  | [] => Err ScorerError
  | _ => Ok (p, stub_output X)
  end.

Definition echo_scorer (p : Pipeline unit) (X : DataFrame)
  : result (Pipeline unit * DataFrame) :=
  Ok (p, X).

Definition label_only_scorer (p : Pipeline unit) (X : DataFrame)
  : result (Pipeline unit * DataFrame) :=
  Ok (p, mkDataFrame (df_index X)
           [("prediction_label", map (fun _ => VStr "CH") (df_index X))]).

Definition empty_batch : DataFrame := mkDataFrame [] [("Id", [])].

(** ** Helper lemmas *)

Lemma list_Z_eqb_refl (l : list Z) : list_Z_eqb l l = true.
Proof. induction l as [|x l IH]; simpl; [reflexivity|]. now rewrite Z.eqb_refl, IH. Qed.

Lemma getitem_ok (df : DataFrame) (name : string) (v : list Value) :
  assoc name (df_columns df) = Some v ->
  getitem df name = Ok (mkSeries (df_index df) v).
Proof. unfold getitem. intros ->. reflexivity. Qed.

Lemma DataFrame_of_dict_two (n1 n2 : string) (idx : list Z) (v1 v2 : list Value) :
  DataFrame_of_dict [(n1, mkSeries idx v1); (n2, mkSeries idx v2)]
  = Ok (mkDataFrame idx [(n1, v1); (n2, v2)]).
Proof. unfold DataFrame_of_dict. simpl. now rewrite list_Z_eqb_refl. Qed.

Lemma assoc_In {A} (k : string) (l : list (string * A)) (v : A) :
  assoc k l = Some v -> In (k, v) l.
Proof.
  induction l as [|[k' v'] l IH]; simpl; [discriminate|].
  destruct (String.eqb_spec k k') as [->|_].
  - intros [= <-]. now left.
  - intros H. right. now apply IH.
Qed.

(** [predict] when the scorer succeeds and its output carries the two
    prediction columns: the result is exactly those two columns, on the
    scorer's index. *)
Lemma predict_unfold (Estimator : Type)
  (predict_model : Pipeline Estimator -> DataFrame -> result (Pipeline Estimator * DataFrame))
  (self : PyCaretModel Estimator) (X : DataFrame) (m' : Pipeline Estimator)
  (out : DataFrame) (labels scores : list Value) :
  predict_model (model Estimator self) X = Ok (m', out) ->
  assoc "prediction_label" (df_columns out) = Some labels ->
  assoc "prediction_score" (df_columns out) = Some scores ->
  predict Estimator predict_model self X
  = Ok (mkPyCaretModel Estimator (context Estimator self) m',
        mkDataFrame (df_index out)
          [("prediction_label", labels); ("prediction_score", scores)]).
Proof.
  intros Hs Hl Hc. unfold predict. rewrite Hs. cbn [bind].
  rewrite (getitem_ok _ _ _ Hl), (getitem_ok _ _ _ Hc). cbn [bind].
  rewrite DataFrame_of_dict_two. reflexivity.
Qed.

Lemma substring_0_length (s : string) : substring 0 (String.length s) s = s.
Proof. induction s as [|c s IH]; simpl; [reflexivity|]. now rewrite IH. Qed.

Lemma substring_0_app (s t : string) :
  substring 0 (String.length s) (s ++ t) = s.
Proof. induction s as [|c s IH]; simpl; [now destruct t|]. now rewrite IH. Qed.

Lemma string_length_app (s t : string) :
  String.length (s ++ t) = (String.length s + String.length t)%nat.
Proof. induction s as [|c s IH]; simpl; congruence. Qed.

Lemma substring_0_split (n : nat) (s : string) :
  exists suf, s = substring 0 n s ++ suf
    /\ String.length suf = (String.length s - Nat.min n (String.length s))%nat.
Proof.
  revert n. induction s as [|c s IH]; intros n.
  - exists "". destruct n; split; reflexivity.
  - destruct n as [|n].
    + exists (String c s). split; [reflexivity|]. simpl. lia.
    + destruct (IH n) as [suf [E L]]. exists suf. split.
      * simpl. now rewrite <- E.
      * simpl. exact L.
Qed.

Lemma substring_0_length_le (n : nat) (s : string) :
  String.length (substring 0 n s) = Nat.min n (String.length s).
Proof.
  revert n. induction s as [|c s IH]; intros [|n]; simpl; try reflexivity.
  now rewrite IH.
Qed.

Lemma model_dir_of_spec (s : string) :
  model_dir_of s = substring 0 (String.length s - 4)%nat s.
Proof.
  unfold model_dir_of, py_slice_to.
  replace (-4 <? 0)%Z with true by reflexivity.
  f_equal. lia.
Qed.

(** [predict] leaves the object's context in place and installs the
    pipeline returned by the scorer. *)
Lemma predict_state (Estimator : Type)
  (predict_model : Pipeline Estimator -> DataFrame -> result (Pipeline Estimator * DataFrame))
  (self self' : PyCaretModel Estimator) (X Y : DataFrame) :
  predict Estimator predict_model self X = Ok (self', Y) ->
  exists out, predict_model (model Estimator self) X = Ok (model Estimator self', out)
    /\ context Estimator self' = context Estimator self.
Proof.
  unfold predict. destruct (predict_model (model Estimator self) X) as [[m' out]|e];
    cbn [bind]; [|discriminate].
  destruct (getitem out "prediction_label") as [lab|e]; cbn [bind]; [|discriminate].
  destruct (getitem out "prediction_score") as [sc|e]; cbn [bind]; [|discriminate].
  destruct (DataFrame_of_dict _) as [res|e]; cbn [bind]; [|discriminate].
  intros [= <- _]. exists out. simpl. auto.
Qed.

(** Under a scorer that leaves [memory] alone, so does every call of
    [predict] and every sequence of calls. *)
Lemma predict_all_memory (Estimator : Type)
  (predict_model : Pipeline Estimator -> DataFrame -> result (Pipeline Estimator * DataFrame))
  (Hmem : forall p X p' out, predict_model p X = Ok (p', out) -> memory Estimator p' = memory Estimator p)
  (Xs : list DataFrame) :
  forall self self' Ys,
  predict_all Estimator predict_model self Xs = Ok (self', Ys) ->
  memory Estimator (model Estimator self') = memory Estimator (model Estimator self).
Proof.
  induction Xs as [|X Xs IH]; intros self self' Ys; simpl.
  - intros [= <- _]. reflexivity.
  - destruct (predict Estimator predict_model self X) as [[s1 Y]|e] eqn:Hp;
      cbn [bind]; [|discriminate].
    destruct (predict_all Estimator predict_model s1 Xs) as [[s2 Ys']|e] eqn:Hr;
      cbn [bind]; [|discriminate].
    intros [= <- _].
    destruct (predict_state _ _ _ _ _ _ Hp) as [out [Hs _]].
    rewrite (IH _ _ _ Hr). exact (Hmem _ _ _ _ Hs).
Qed.

(** [__init__] reads the file [model_dir_of p ++ ".pkl"], [p] being the
    artifact path, and overrides [memory] on success. *)
Lemma init_unfold (Estimator Blob : Type) (unpickle : Blob -> option (Pipeline Estimator))
  (fs : FileSystem Blob) (ctx : ModelContext) (p : string) :
  context_path ctx "model_file" = Ok p ->
  init Estimator Blob unpickle fs ctx
  = match assoc (model_dir_of p ++ ".pkl") fs with
    | None => Err (FileNotFoundError (model_dir_of p ++ ".pkl"))
    | Some b =>
        match unpickle b with
        | None => Err (UnpicklingError (model_dir_of p ++ ".pkl"))
        | Some m => Ok (mkPyCaretModel Estimator ctx
                          {| memory := "/tmp/"; estimator := estimator Estimator m |})
        end
    end.
Proof.
  intros Hc. unfold init. rewrite Hc. cbn [bind]. unfold load_model.
  destruct (assoc _ fs) as [b|]; [|reflexivity].
  destruct (unpickle b); reflexivity.
Qed.

Lemma model_dir_of_pkl (stem : string) : model_dir_of (stem ++ ".pkl") = stem.
Proof.
  rewrite model_dir_of_spec, string_length_app. simpl String.length.
  replace (String.length stem + 4 - 4)%nat with (String.length stem) by lia.
  apply substring_0_app.
Qed.

(** ** Runs on the sample data *)

Example init_sample :
  init unit string stub_unpickle sample_fs sample_ctx = Ok sample_adapter.
Proof. reflexivity. Qed.

Example predict_sample :
  predict unit stub_scorer sample_adapter sample_batch
  = Ok (sample_adapter, sample_prediction).
Proof. reflexivity. Qed.

Example model_dir_of_examples :
  model_dir_of "juice_best_model.pkl" = "juice_best_model"
  /\ model_dir_of "model.bin" = "model"
  /\ model_dir_of "a.p" = "".
Proof. repeat split; reflexivity. Qed.

(** ** Claims *)

(** C1: when the scorer answers a batch with one row per input row, in the
    input's order (same index), and carries its two prediction columns,
    [predict] succeeds and returns a well-formed frame on the input's
    index: as many rows as the input, in the same order. *)
Theorem predict_preserves_rows (Estimator : Type)
  (predict_model : Pipeline Estimator -> DataFrame -> result (Pipeline Estimator * DataFrame))
  (self : PyCaretModel Estimator) (X out : DataFrame) (m' : Pipeline Estimator) :
  predict_model (model Estimator self) X = Ok (m', out) ->
  df_index out = df_index X ->
  df_wf out ->
  (exists labels, assoc "prediction_label" (df_columns out) = Some labels) ->
  (exists scores, assoc "prediction_score" (df_columns out) = Some scores) ->
  exists self' Y,
    predict Estimator predict_model self X = Ok (self', Y)
    /\ df_index Y = df_index X
    /\ df_nrows Y = df_nrows X
    /\ df_wf Y.
Proof.
  intros Hs Hidx Hwf [labels Hl] [scores Hc].
  eexists; eexists. split; [exact (predict_unfold _ _ _ _ _ _ _ _ Hs Hl Hc)|].
  simpl. unfold df_nrows. simpl. rewrite Hidx. split; [reflexivity|split; [reflexivity|]].
  unfold df_wf in *. rewrite Forall_forall in Hwf. simpl.
  rewrite <- Hidx.
  constructor; [exact (Hwf _ (assoc_In _ _ _ Hl))|].
  constructor; [exact (Hwf _ (assoc_In _ _ _ Hc))|].
  constructor.
Qed.

Lemma predict_preserves_rows_witness :
  exists self' Y,
    predict unit stub_scorer sample_adapter sample_batch = Ok (self', Y)
    /\ df_index Y = df_index sample_batch
    /\ df_nrows Y = df_nrows sample_batch
    /\ df_wf Y.
Proof.
  apply (predict_preserves_rows unit stub_scorer sample_adapter sample_batch
           (stub_output sample_batch) (model unit sample_adapter)).
  - reflexivity.
  - reflexivity.
  - vm_compute. repeat constructor.
  - eexists. reflexivity.
  - eexists. reflexivity.
Defined.

(** C2: [predict] returns exactly the two columns [prediction_label] and
    [prediction_score], whatever other columns the scorer's frame has,
    with the scorer's values; so when the scorer's labels are text and
    its scores are floats in [0, 1], so are those of the result. *)
Theorem predict_two_columns (Estimator : Type)
  (predict_model : Pipeline Estimator -> DataFrame -> result (Pipeline Estimator * DataFrame))
  (self : PyCaretModel Estimator) (X out : DataFrame) (m' : Pipeline Estimator)
  (labels scores : list Value) :
  predict_model (model Estimator self) X = Ok (m', out) ->
  assoc "prediction_label" (df_columns out) = Some labels ->
  assoc "prediction_score" (df_columns out) = Some scores ->
  Forall (fun v => exists t, v = VStr t) labels ->
  Forall (fun v => exists q, v = VFloat q /\ (0 <= q <= 1)%Q) scores ->
  exists self' Y,
    predict Estimator predict_model self X = Ok (self', Y)
    /\ df_column_names Y = ["prediction_label"; "prediction_score"]
    /\ assoc "prediction_label" (df_columns Y) = Some labels
    /\ assoc "prediction_score" (df_columns Y) = Some scores
    /\ (forall v, assoc "prediction_label" (df_columns Y) = Some v ->
          Forall (fun x => exists t, x = VStr t) v)
    /\ (forall v, assoc "prediction_score" (df_columns Y) = Some v ->
          Forall (fun x => exists q, x = VFloat q /\ (0 <= q <= 1)%Q) v).
Proof.
  intros Hs Hl Hc Htxt Hrng.
  eexists; eexists. split; [exact (predict_unfold _ _ _ _ _ _ _ _ Hs Hl Hc)|].
  simpl. repeat split; try reflexivity.
  - intros v [= <-]. exact Htxt.
  - intros v [= <-]. exact Hrng.
Qed.

Lemma predict_two_columns_witness :
  exists self' Y,
    predict unit stub_scorer sample_adapter sample_batch = Ok (self', Y)
    /\ df_column_names Y = ["prediction_label"; "prediction_score"]
    /\ assoc "prediction_label" (df_columns Y) = Some [VStr "CH"; VStr "CH"; VStr "CH"]
    /\ assoc "prediction_score" (df_columns Y)
       = Some [VFloat (1 # 2); VFloat (1 # 2); VFloat (1 # 2)]
    /\ (forall v, assoc "prediction_label" (df_columns Y) = Some v ->
          Forall (fun x => exists t, x = VStr t) v)
    /\ (forall v, assoc "prediction_score" (df_columns Y) = Some v ->
          Forall (fun x => exists q, x = VFloat q /\ (0 <= q <= 1)%Q) v).
Proof.
  apply (predict_two_columns unit stub_scorer sample_adapter sample_batch
           (stub_output sample_batch) (model unit sample_adapter)).
  - reflexivity.
  - reflexivity.
  - reflexivity.
  - repeat constructor; eexists; reflexivity.
  - repeat constructor; eexists; (split; [reflexivity|]); split; vm_compute; discriminate.
Defined.

(** C5: construction sets the pipeline's [memory] to ["/tmp/"], and it
    keeps that value after any sequence of [predict] calls: [predict]
    never assigns it (the scorer being one that leaves [memory] alone). *)
Theorem memory_set_once (Estimator Blob : Type)
  (unpickle : Blob -> option (Pipeline Estimator))
  (predict_model : Pipeline Estimator -> DataFrame -> result (Pipeline Estimator * DataFrame))
  (Hmem : forall p X p' out, predict_model p X = Ok (p', out) ->
          memory Estimator p' = memory Estimator p)
  (fs : FileSystem Blob) (ctx : ModelContext) (a : PyCaretModel Estimator) :
  init Estimator Blob unpickle fs ctx = Ok a ->
  memory Estimator (model Estimator a) = "/tmp/"
  /\ forall Xs a' Ys,
       predict_all Estimator predict_model a Xs = Ok (a', Ys) ->
       memory Estimator (model Estimator a') = "/tmp/".
Proof.
  intros Hi.
  assert (H0 : memory Estimator (model Estimator a) = "/tmp/").
  { revert Hi. unfold init.
    destruct (context_path ctx "model_file") as [p|e]; cbn [bind]; [|discriminate].
    destruct (load_model Estimator Blob unpickle fs (model_dir_of p)) as [m|e];
      cbn [bind]; [|discriminate].
    intros [= <-]. reflexivity. }
  split; [exact H0|].
  intros Xs a' Ys Hr. rewrite (predict_all_memory _ _ Hmem _ _ _ _ Hr). exact H0.
Qed.

Lemma memory_set_once_witness :
  memory unit (model unit sample_adapter) = "/tmp/"
  /\ forall Xs a' Ys,
       predict_all unit stub_scorer sample_adapter Xs = Ok (a', Ys) ->
       memory unit (model unit a') = "/tmp/".
Proof.
  apply (memory_set_once unit string stub_unpickle stub_scorer)
    with (fs := sample_fs) (ctx := sample_ctx).
  - intros p X p' out Hs. unfold stub_scorer in Hs. injection Hs as <- _. reflexivity.
  - reflexivity.
Defined.

(** C9: the output of [predict] depends only on the object and the batch:
    if a call leaves the pipeline as it found it, calling [predict] again
    with the same batch gives the same object and the same output. *)
Theorem predict_idempotent (Estimator : Type)
  (predict_model : Pipeline Estimator -> DataFrame -> result (Pipeline Estimator * DataFrame))
  (self self1 : PyCaretModel Estimator) (X Y1 : DataFrame) :
  predict Estimator predict_model self X = Ok (self1, Y1) ->
  model Estimator self1 = model Estimator self ->
  predict Estimator predict_model self1 X = Ok (self1, Y1).
Proof.
  intros Hp Hm.
  destruct (predict_state _ _ _ _ _ _ Hp) as [out [_ Hc]].
  assert (E : self1 = self).
  { destruct self1, self. simpl in *. now subst. }
  rewrite E in *. exact Hp.
Qed.

Lemma predict_idempotent_witness :
  predict unit stub_scorer sample_adapter sample_batch
  = Ok (sample_adapter, sample_prediction).
Proof.
  apply (predict_idempotent unit stub_scorer sample_adapter sample_adapter sample_batch);
    reflexivity.
Defined.

(** C6: for an artifact path [stem ++ ".pkl"], the path computed in
    [__init__] is [stem], the suffix stripped; [load_model], which appends
    ".pkl" again, then reads exactly the artifact file. *)
Theorem model_dir_strips_pkl (stem : string) :
  model_dir_of (stem ++ ".pkl") = stem
  /\ model_dir_of (stem ++ ".pkl") ++ ".pkl" = stem ++ ".pkl".
Proof. rewrite model_dir_of_pkl. split; reflexivity. Qed.

(** C10: the slice [p[:-4]] drops the last four characters of any path,
    whatever its extension: the result followed by the removed suffix of
    [min 4 (len p)] characters is [p]; a path of at most four characters
    gives the empty string, and nothing fails. *)
Theorem model_dir_strips_last_four (p : string) :
  (exists suf, p = model_dir_of p ++ suf
               /\ String.length suf = Nat.min 4 (String.length p))
  /\ String.length (model_dir_of p) = (String.length p - 4)%nat
  /\ ((String.length p <= 4)%nat -> model_dir_of p = "").
Proof.
  rewrite model_dir_of_spec.
  destruct (substring_0_split (String.length p - 4) p) as [suf [E L]].
  split; [|split].
  - exists suf. split; [exact E|]. rewrite L. lia.
  - rewrite substring_0_length_le. lia.
  - intros Hle. replace (String.length p - 4)%nat with 0%nat by lia.
    destruct p; reflexivity.
Qed.

(** C4 fails for an artifact path not ending in ".pkl": with the
    artifact "model.bin" missing but "model.pkl" present, [__init__]
    loads "model.pkl" and succeeds. *)
Lemma init_errors_counterexample : ~ init_errors_claim stub_unpickle.
Proof.
  intros H.
  destruct (H [("model.pkl", "PIPELINE")] (mkModelContext [("model_file", "model.bin")])
              "model.bin" eq_refl) as [Hnf _].
  destruct (Hnf eq_refl) as [path Hp].
  vm_compute in Hp. discriminate.
Qed.

(** C4 (amended): for an artifact path [stem ++ ".pkl"], construction
    fails with [FileNotFoundError] on that path when no such file exists,
    with [UnpicklingError] when its contents are not a serialized
    pipeline, and otherwise returns an object owning the loaded pipeline
    with [memory] set to ["/tmp/"]. For any artifact path [p], ".pkl" or
    not, the file read (and named in the error) is [p] minus its last four
    characters, plus ".pkl". *)
Theorem init_errors_pkl (Estimator Blob : Type)
  (unpickle : Blob -> option (Pipeline Estimator))
  (fs : FileSystem Blob) (ctx : ModelContext) :
  (forall stem, context_path ctx "model_file" = Ok (stem ++ ".pkl") ->
    (assoc (stem ++ ".pkl") fs = None ->
       init Estimator Blob unpickle fs ctx = Err (FileNotFoundError (stem ++ ".pkl")))
    /\ (forall b, assoc (stem ++ ".pkl") fs = Some b -> unpickle b = None ->
         init Estimator Blob unpickle fs ctx = Err (UnpicklingError (stem ++ ".pkl")))
    /\ (forall b m, assoc (stem ++ ".pkl") fs = Some b -> unpickle b = Some m ->
         init Estimator Blob unpickle fs ctx
         = Ok (mkPyCaretModel Estimator ctx
                 {| memory := "/tmp/"; estimator := estimator Estimator m |})))
  /\ (forall p, context_path ctx "model_file" = Ok p ->
       init Estimator Blob unpickle fs ctx
       = match assoc (model_dir_of p ++ ".pkl") fs with
         | None => Err (FileNotFoundError (model_dir_of p ++ ".pkl"))
         | Some b =>
             match unpickle b with
             | None => Err (UnpicklingError (model_dir_of p ++ ".pkl"))
             | Some m => Ok (mkPyCaretModel Estimator ctx
                               {| memory := "/tmp/"; estimator := estimator Estimator m |})
             end
         end).
Proof.
  split.
  - intros stem Hc. rewrite (init_unfold _ _ _ _ _ _ Hc), model_dir_of_pkl.
    split; [|split].
    + intros ->. reflexivity.
    + intros b -> ->. reflexivity.
    + intros b m -> ->. reflexivity.
  - intros p Hc. exact (init_unfold _ _ _ _ _ _ Hc).
Qed.

Lemma init_errors_pkl_witness :
  init unit string stub_unpickle sample_fs sample_ctx
  = Ok (mkPyCaretModel unit sample_ctx {| memory := "/tmp/"; estimator := tt |})
  /\ init unit string stub_unpickle [] sample_ctx
     = Err (FileNotFoundError "juice_best_model.pkl")
  /\ init unit string stub_unpickle [("juice_best_model.pkl", "garbage")] sample_ctx
     = Err (UnpicklingError "juice_best_model.pkl")
  /\ init unit string stub_unpickle [("model.pkl", "PIPELINE")]
       (mkModelContext [("model_file", "model.bin")])
     = Ok (mkPyCaretModel unit (mkModelContext [("model_file", "model.bin")])
             {| memory := "/tmp/"; estimator := tt |}).
Proof.
  split; [|split; [|split]].
  - destruct (init_errors_pkl unit string stub_unpickle sample_fs sample_ctx)
      as [Hpkl _].
    destruct (Hpkl "juice_best_model" eq_refl) as [_ [_ Hok]].
    exact (Hok "PIPELINE" (mkPipeline unit "/var/cache/pycaret" tt) eq_refl eq_refl).
  - destruct (init_errors_pkl unit string stub_unpickle [] sample_ctx) as [Hpkl _].
    destruct (Hpkl "juice_best_model" eq_refl) as [Hnf _].
    exact (Hnf eq_refl).
  - destruct (init_errors_pkl unit string stub_unpickle
                [("juice_best_model.pkl", "garbage")] sample_ctx) as [Hpkl _].
    destruct (Hpkl "juice_best_model" eq_refl) as [_ [Hbad _]].
    exact (Hbad "garbage" eq_refl eq_refl).
  - destruct (init_errors_pkl unit string stub_unpickle [("model.pkl", "PIPELINE")]
                (mkModelContext [("model_file", "model.bin")])) as [_ Hany].
    rewrite (Hany "model.bin" eq_refl). reflexivity.
Defined.

(** ** Further properties of the code *)

(** [predict] succeeds exactly when the scorer succeeds and its frame has
    both prediction columns; the result is then the new pipeline under the
    old context and the two columns on the scorer's index. *)
Theorem predict_ok_iff (Estimator : Type)
  (predict_model : Pipeline Estimator -> DataFrame -> result (Pipeline Estimator * DataFrame))
  (self self' : PyCaretModel Estimator) (X Y : DataFrame) :
  predict Estimator predict_model self X = Ok (self', Y) <->
  exists m' out labels scores,
    predict_model (model Estimator self) X = Ok (m', out)
    /\ assoc "prediction_label" (df_columns out) = Some labels
    /\ assoc "prediction_score" (df_columns out) = Some scores
    /\ self' = mkPyCaretModel Estimator (context Estimator self) m'
    /\ Y = mkDataFrame (df_index out)
             [("prediction_label", labels); ("prediction_score", scores)].
Proof.
  split.
  - unfold predict.
    destruct (predict_model (model Estimator self) X) as [[m' out]|e] eqn:Hs;
      cbn [bind]; [|discriminate].
    unfold getitem.
    destruct (assoc "prediction_label" (df_columns out)) as [labels|] eqn:Hl;
      cbn [bind]; [|discriminate].
    destruct (assoc "prediction_score" (df_columns out)) as [scores|] eqn:Hc;
      cbn [bind]; [|discriminate].
    rewrite DataFrame_of_dict_two. cbn [bind]. intros [= <- <-].
    exists m', out, labels, scores. repeat split; auto.
  - intros (m' & out & labels & scores & Hs & Hl & Hc & -> & ->).
    exact (predict_unfold _ _ _ _ _ _ _ _ Hs Hl Hc).
Qed.

(** The only errors [predict] raises are the scorer's own, passed on
    unchanged, and a [KeyError] for a missing prediction column: building
    the result frame never fails. *)
Theorem predict_errors (Estimator : Type)
  (predict_model : Pipeline Estimator -> DataFrame -> result (Pipeline Estimator * DataFrame))
  (self : PyCaretModel Estimator) (X : DataFrame) (e : exn) :
  predict Estimator predict_model self X = Err e ->
  predict_model (model Estimator self) X = Err e
  \/ e = KeyError "prediction_label"
  \/ e = KeyError "prediction_score".
Proof.
  unfold predict.
  destruct (predict_model (model Estimator self) X) as [[m' out]|e'] eqn:Hs;
    cbn [bind]; [|intros [= ->]; now left].
  unfold getitem.
  destruct (assoc "prediction_label" (df_columns out)) as [labels|];
    cbn [bind]; [|intros [= <-]; right; now left].
  destruct (assoc "prediction_score" (df_columns out)) as [scores|];
    cbn [bind]; [|intros [= <-]; right; now right].
  rewrite DataFrame_of_dict_two. discriminate.
Qed.

Lemma predict_errors_witness :
  predict unit picky_scorer sample_adapter empty_batch = Err ScorerError
  /\ (picky_scorer (model unit sample_adapter) empty_batch = Err ScorerError
      \/ ScorerError = KeyError "prediction_label"
      \/ ScorerError = KeyError "prediction_score").
Proof.
  split; [reflexivity|].
  apply (predict_errors unit picky_scorer sample_adapter empty_batch ScorerError).
  reflexivity.
Defined.

(** A scored frame without [prediction_label] makes [predict] raise
    [KeyError "prediction_label"]; one with the label but without
    [prediction_score] makes it raise [KeyError "prediction_score"]. *)
Theorem predict_missing_columns (Estimator : Type)
  (predict_model : Pipeline Estimator -> DataFrame -> result (Pipeline Estimator * DataFrame))
  (self : PyCaretModel Estimator) (X out : DataFrame) (m' : Pipeline Estimator) :
  predict_model (model Estimator self) X = Ok (m', out) ->
  (assoc "prediction_label" (df_columns out) = None ->
     predict Estimator predict_model self X = Err (KeyError "prediction_label"))
  /\ (forall labels, assoc "prediction_label" (df_columns out) = Some labels ->
      assoc "prediction_score" (df_columns out) = None ->
      predict Estimator predict_model self X = Err (KeyError "prediction_score")).
Proof.
  intros Hs. unfold predict. rewrite Hs. cbn [bind]. unfold getitem. split.
  - intros ->. reflexivity.
  - intros labels -> ->. reflexivity.
Qed.

Lemma predict_missing_columns_witness :
  predict unit echo_scorer sample_adapter sample_batch = Err (KeyError "prediction_label")
  /\ predict unit label_only_scorer sample_adapter sample_batch
     = Err (KeyError "prediction_score").
Proof.
  split.
  - destruct (predict_missing_columns unit echo_scorer sample_adapter sample_batch
                sample_batch (model unit sample_adapter) eq_refl) as [H _].
    exact (H eq_refl).
  - destruct (predict_missing_columns unit label_only_scorer sample_adapter sample_batch
                (snd (model unit sample_adapter,
                      mkDataFrame (df_index sample_batch)
                        [("prediction_label", map (fun _ => VStr "CH") (df_index sample_batch))]))
                (model unit sample_adapter) eq_refl) as [_ H].
    exact (H _ eq_refl eq_refl).
Defined.

(** Without a ["model_file"] artifact, [__init__] raises
    [KeyError "model_file"] before it touches the filesystem. *)
Theorem init_missing_model_file (Estimator Blob : Type)
  (unpickle : Blob -> option (Pipeline Estimator))
  (ctx : ModelContext) :
  assoc "model_file" (artifacts ctx) = None ->
  forall fs, init Estimator Blob unpickle fs ctx = Err (KeyError "model_file").
Proof.
  intros Hk fs. unfold init, context_path. rewrite Hk. reflexivity.
Qed.

Lemma init_missing_model_file_witness :
  init unit string stub_unpickle sample_fs
    (mkModelContext [("model", "juice_best_model.pkl")])
  = Err (KeyError "model_file").
Proof.
  apply (init_missing_model_file unit string stub_unpickle). reflexivity.
Defined.

(** When the scorer hands back the pipeline it was given, a run leaves the
    object as it was and each output is what a single [predict] on the
    original object gives: the batches do not influence one another. *)
Theorem predict_all_independent (Estimator : Type)
  (predict_model : Pipeline Estimator -> DataFrame -> result (Pipeline Estimator * DataFrame))
  (Hpure : forall p X p' out, predict_model p X = Ok (p', out) -> p' = p)
  (Xs : list DataFrame) :
  forall self self' Ys,
  predict_all Estimator predict_model self Xs = Ok (self', Ys) ->
  self' = self
  /\ Forall2 (fun X Y => predict Estimator predict_model self X = Ok (self, Y)) Xs Ys.
Proof.
  induction Xs as [|X Xs IH]; intros self self' Ys; simpl.
  - intros [= <- <-]. split; [reflexivity|constructor].
  - destruct (predict Estimator predict_model self X) as [[s1 Y]|e] eqn:Hp; cbn [bind];
      [|discriminate].
    assert (E : s1 = self).
    { destruct (predict_state _ _ _ _ _ _ Hp) as [out [Hs Hc]].
      apply Hpure in Hs. destruct s1, self. simpl in *. now subst. }
    subst s1.
    destruct (predict_all Estimator predict_model self Xs) as [[s2 Ys']|e] eqn:Hr;
      cbn [bind]; [|discriminate].
    intros [= <- <-]. destruct (IH _ _ _ Hr) as [-> HF].
    split; [reflexivity|]. constructor; assumption.
Qed.

Lemma predict_all_independent_witness :
  predict_all unit stub_scorer sample_adapter [sample_batch; sample_batch]
  = Ok (sample_adapter, [sample_prediction; sample_prediction])
  /\ sample_adapter = sample_adapter
  /\ Forall2 (fun X Y => predict unit stub_scorer sample_adapter X = Ok (sample_adapter, Y))
       [sample_batch; sample_batch] [sample_prediction; sample_prediction].
Proof.
  split; [reflexivity|].
  apply (predict_all_independent unit stub_scorer).
  - intros p X p' out Hs. unfold stub_scorer in Hs. now injection Hs as <- _.
  - reflexivity.
Defined.
